(** * Safe-Code-Executor: the executor module ([executor.py]) and its
      callers in [app.py]

    A shallow embedding of [run_code], [run_code_from_dir], [run_multiple]
    and [_build_cmd_for_file], with the host file system, the standard
    output of the server and the calls to [subprocess.run] made explicit;
    and of the history and the handlers [run] and [run_batch] of [app.py]
    on top of them. The handler [run_zip] is left out: it rests on the
    upload, on [secure_filename] and on [zipfile].

    Conventions.
    - A Python [str] is a [string]; its characters are read as code points
      below 256, on which [str.lower] is [lower] below.
    - A call either returns a value or raises: [py_result].
    - The host is threaded through every effectful call: [M]. It holds
      directories and regular files under their resolved names, and
      [os.path.exists] resolves a path against them as the system does.
    - [subprocess.run] (the docker client, the container and the timeout of
      the call) is a parameter of the development: given the files of the
      host and the command line it answers with a [CompletedProcess] or
      raises, [TimeoutExpired] included.
    - The functions return a triple [(stdout, stderr, exit_code)]; the
      outcome of a run is told by the exit code: [-2] unsupported language,
      [-3] entry file not found (and, in a batch, executor error), [-1]
      timed out, [137] killed. *)

From Stdlib Require Import ZArith Ascii String Permutation.
From stdpp Require Import base option list strings pretty gmap.

Local Open Scope Z_scope.
Local Open Scope string_scope.

(** ** Python strings *)

Module PyStr.

(** [c.lower()] for one character with code point below 256: the letters
    A..Z and the Latin-1 capitals 0xC0..0xDE, the sign 0xD7 left out, move
    up by 32. *)
Definition lower_char (c : ascii) : ascii :=
  let n := N_of_ascii c in
  if ((65 <=? n) && (n <=? 90))%N then ascii_of_N (n + 32)
  else if ((192 <=? n) && (n <=? 222) && negb (n =? 215))%N
       then ascii_of_N (n + 32)
  else c.

(** [s.lower()] *)
Fixpoint lower (s : string) : string :=
  match s with
  | EmptyString => EmptyString
  | String c s' => String (lower_char c) (lower s')
  end.

(** [s.startswith(p)] *)
Fixpoint startswith (p s : string) : bool :=
  match p, s with
  | EmptyString, _ => true
  | String a p', String b s' => if Ascii.eqb a b then startswith p' s' else false
  | String _ _, EmptyString => false
  end.

(** [needle in hay], the substring test of Python. *)
Fixpoint str_in (needle hay : string) : bool :=
  startswith needle hay ||
  match hay with
  | EmptyString => false
  | String _ hay' => str_in needle hay'
  end.

(** [sep.join(l)] *)
Fixpoint join (sep : string) (l : list string) : string :=
  match l with
  | [] => ""
  | [x] => x
  | x :: l' => x +:+ sep +:+ join sep l'
  end.

(** [s or d]: the empty string is falsy. *)
Definition str_or (s d : string) : string :=
  if String.eqb s "" then d else s.

(** [o or d] for a value that is a string or [None]. *)
Definition opt_or (o : option string) (d : string) : string :=
  match o with
  | None => d
  | Some s => str_or s d
  end.

End PyStr.

Export PyStr.

(** ** Values, exceptions and the host *)

(** The exceptions the module meets. [msg] is [str(e)]. [TimeoutExpired]
    carries the output captured until the deadline, as Python's does. *)
Inductive exn :=
| TimeoutExpired (msg : string) (output stderr : option string)
| ValueError (msg : string)
| KeyError (msg : string)
| IndexError (msg : string)
| OtherException (msg : string).

(** [str(e)] *)
Definition str_exn (e : exn) : string :=
  match e with
  | TimeoutExpired m _ _ => m
  | ValueError m => m
  | KeyError m => m
  | IndexError m => m
  | OtherException m => m
  end.

Inductive py_result (A : Type) :=
| Return (a : A)
| Raise (e : exn).

Arguments Return {A} a.
Arguments Raise {A} e.

(** What [subprocess.run(..., capture_output=True, text=True)] returns. *)
Record CompletedProcess := mkCompleted {
  stdout : option string;
  stderr : option string;
  returncode : Z
}.

(** The triple [(stdout, stderr, exit_code)] of the entry points. *)
Definition triple : Type := string * string * Z.

(** What the host observes of a run, in order. *)
Inductive event :=
| EvMkdtemp (d : string)
| EvWrite (path contents : string)
| EvPrint (line : string)
| EvSubprocessRun (cmd : list string)
| EvRmtree (d : string).

(** The host: regular files with their text, directories, the counter that
    stands for the random suffix of [tempfile], and the journal of events. *)
Record host := mkHost {
  files : gmap string string;
  dirs : gset string;
  tmp_seq : nat;
  journal : list event
}.

Definition record (ev : event) (h : host) : host :=
  mkHost (files h) (dirs h) (tmp_seq h) (journal h ++ [ev]).

(** Effectful code: the host goes in and comes out, with a value or an
    exception. *)
Definition M (A : Type) : Type := host -> py_result A * host.

Definition ret {A} (a : A) : M A := fun h => (Return a, h).

Definition throw {A} (e : exn) : M A := fun h => (Raise e, h).

Definition bind {A B} (c : M A) (k : A -> M B) : M B :=
  fun h =>
    match c h with
    | (Return a, h') => k a h'
    | (Raise e, h') => (Raise e, h')
    end.

Notation "'let*' x ':=' c 'in' k" := (bind c (fun x => k))
  (at level 10, x name, c at level 100, k at level 200).

(** Lift a pure call that may raise. *)
Definition lift {A} (r : py_result A) : M A := fun h => (r, h).

(** [try: c except TimeoutExpired: handler] *)
Definition try_except_timeout {A} (c : M A) (handler : M A) : M A :=
  fun h =>
    match c h with
    | (Raise (TimeoutExpired _ _ _), h') => handler h'
    | other => other
    end.

(** ** The host calls of the module *)

Module os_path.

(** [os.path.join(a, b)] on POSIX paths. *)
Definition join (a b : string) : string :=
  if startswith "/" b then b
  else if String.eqb a "" then b
  else if startswith "/" (String.rev a) then a +:+ b
  else a +:+ "/" +:+ b.

(** [p.split("/")] *)
Fixpoint components (p : string) : list string :=
  match p with
  | EmptyString => [EmptyString]
  | String c p' =>
      match components p' with
      | [] => []
      | w :: ws =>
          if Ascii.eqb c "/" then EmptyString :: w :: ws else String c w :: ws
      end
  end.

(** The host records its files and directories under their resolved
    names: no empty component, no [.] and no [..] after a name, and
    relative names for what lies under the working directory. A place
    reached while a path is resolved is a list of components, the last
    first, from the root ([abs]) or from the working directory. *)
Definition render (abs : bool) (place : list string) : string :=
  (if abs then "/" else "") +:+ PyStr.join "/" (rev place).

(** Something is recorded below the directory [d]. *)
Definition holds_below (h : host) (d : string) : bool :=
  existsb (startswith (d +:+ "/"))
    ((map_to_list (files h)).*1 ++ elements (dirs h)).

Definition is_file_at (h : host) (abs : bool) (place : list string) : bool :=
  bool_decide (is_Some (files h !! render abs place)).

(** A directory: the root, the working directory and what is above it, a
    directory the host records, and any directory on the way to something
    the host records. *)
Definition is_dir_at (h : host) (abs : bool) (place : list string) : bool :=
  forallb (String.eqb "..") place
  || bool_decide (render abs place ∈ dirs h)
  || holds_below h (render abs place).

(** The place [..] leads to: the root is its own parent. *)
Definition parent (abs : bool) (place : list string) : list string :=
  match place with
  | [] => if abs then [] else [".."]
  | c :: rest => if String.eqb c ".." then ".." :: place else rest
  end.

(** Resolution of the components left, as the system does it for [stat]:
    every step is taken from a directory; an empty component and [.] stay
    there, [..] goes up, a name must be there. *)
Fixpoint walk (h : host) (abs : bool) (place comps : list string) : bool :=
  match comps with
  | [] => true
  | c :: comps' =>
      is_dir_at h abs place &&
      (if String.eqb c "" || String.eqb c "." then walk h abs place comps'
       else if String.eqb c ".." then walk h abs (parent abs place) comps'
       else (is_file_at h abs (c :: place) || is_dir_at h abs (c :: place))
            && walk h abs (c :: place) comps')
  end.

(** [os.path.exists(p)]: the path resolves to a file or a directory of the
    host, which holds directories and regular files only. *)
Definition exists_ (p : string) (h : host) : bool :=
  negb (String.eqb p "") && walk h (startswith "/" p) [] (components p).

End os_path.

(** [tempfile.mkdtemp], as [TemporaryDirectory] calls it on entry. *)
Definition mkdtemp : M string := fun h =>
  let d := "/tmp/tmp" +:+ pretty (tmp_seq h) in
  (Return d,
   record (EvMkdtemp d) (mkHost (files h) ({[d]} ∪ dirs h) (S (tmp_seq h)) (journal h))).

(** What [TemporaryDirectory] does on exit: the directory and all below it
    go. *)
Definition rmtree (d : string) (h : host) : host :=
  record (EvRmtree d)
    (mkHost (filter (fun kv => negb (startswith (d +:+ "/") kv.1)) (files h))
            (dirs h ∖ {[d]}) (tmp_seq h) (journal h)).

(** [with tempfile.TemporaryDirectory() as tmpdir: body]: the directory is
    removed however the body ends. *)
Definition with_TemporaryDirectory {A} (body : string -> M A) : M A :=
  fun h =>
    match mkdtemp h with
    | (Return d, h1) => let (r, h2) := body d h1 in (r, rmtree d h2)
    | (Raise e, h1) => (Raise e, h1)
    end.

(** [with open(path, "w") as f: f.write(text)] *)
Definition write_file (path text : string) : M unit := fun h =>
  (Return tt,
   record (EvWrite path text)
     (mkHost (<[path := text]> (files h)) (dirs h) (tmp_seq h) (journal h))).

(** [print(line)] *)
Definition print (line : string) : M unit := fun h =>
  (Return tt, record (EvPrint line) h).

(** ** executor.py *)

Definition PYTHON_IMAGE : string := "python:3.11-slim".
Definition NODE_IMAGE : string := "node:20-slim".

Definition TIMEOUT_SECONDS : Z := 10.
Definition MEMORY_LIMIT : string := "128m".

Definition DOCKER_BASE_FLAGS : list string :=
  ["docker"; "run"; "--rm";
   "--memory"; MEMORY_LIMIT;
   "--network"; "none";
   "--read-only"].

(** The two fixed messages, as the f-strings build them. *)
Definition killed_message : string :=
  "Process killed (likely out of memory > " +:+ MEMORY_LIMIT +:+ ").".

Definition timeout_message : string :=
  "Execution timed out after " +:+ pretty TIMEOUT_SECONDS +:+ " seconds.".

(** [lang not in ("python", "node")] *)
Definition supported (lang : string) : bool :=
  String.eqb lang "python" || String.eqb lang "node".

Definition _build_cmd_for_file (container_filename : string)
    (lang : option string) (tmpdir : string) : py_result (list string) :=
  let lang := lower (opt_or lang "python") in
  let choice :=
    if String.eqb lang "python" then
      Return (PYTHON_IMAGE, ["python"; container_filename])
    else if String.eqb lang "node" then
      Return (NODE_IMAGE, ["node"; container_filename])
    else Raise (ValueError ("Unsupported language: " +:+ lang)) in
  match choice with
  | Return (image, run_cmd) =>
      Return (DOCKER_BASE_FLAGS ++
              ["-v"; tmpdir +:+ ":/app:ro";
               "-w"; "/app";
               image] ++ run_cmd)%list
  | Raise e => Raise e
  end.

Section Executor.

(** [subprocess.run(cmd, capture_output=True, text=True,
    timeout=TIMEOUT_SECONDS)]: the answer of the docker client for a
    command line, on the files the host holds at that moment. It raises
    [TimeoutExpired] when the deadline passes and whatever the operating
    system raises when the client cannot be started. *)
Variable provider : gmap string string -> list string -> py_result CompletedProcess.

Definition subprocess_run (cmd : list string) : M CompletedProcess := fun h =>
  (provider (files h) cmd, record (EvSubprocessRun cmd) h).

Definition run_code (code : string) (lang : option string) : M triple :=
  let lang := lower (opt_or lang "python") in
  if negb (supported lang) then
    ret ("", "Unsupported language: " +:+ lang, -2)
  else
    let filename := if String.eqb lang "python" then "user_code.py" else "user_code.js" in
    with_TemporaryDirectory (fun tmpdir =>
      let file_path := os_path.join tmpdir filename in
      let* _ := write_file file_path code in
      let* cmd := lift (_build_cmd_for_file filename (Some lang) tmpdir) in
      let* _ := print ("DEBUG executor: running command: " +:+ join " " cmd) in
      try_except_timeout
        (let* result := subprocess_run cmd in
         let stdout := opt_or (stdout result) "" in
         let stderr := opt_or (stderr result) "" in
         let exit_code := returncode result in
         if (exit_code =? 137)%Z || str_in "Killed" stderr || str_in "OOM" stderr then
           ret ("", killed_message, 137)
         else if str_in "MemoryError" stderr then
           ret ("", stderr, exit_code)
         else
           ret (stdout, stderr, exit_code))
        (ret ("", timeout_message, -1))).

Definition run_code_from_dir (entry_filename : string) (lang : option string)
    (host_dir : string) : M triple :=
  let lang := lower (opt_or lang "python") in
  if negb (supported lang) then
    ret ("", "Unsupported language: " +:+ lang, -2)
  else
    let entry_path := os_path.join host_dir entry_filename in
    fun h =>
    if negb (os_path.exists_ entry_path h) then
      ret ("", "Entry file not found: " +:+ entry_filename, -3) h
    else
      (let* cmd := lift (_build_cmd_for_file entry_filename (Some lang) host_dir) in
       let* _ := print ("DEBUG executor: running command (from dir): " +:+ join " " cmd) in
       try_except_timeout
         (let* result := subprocess_run cmd in
          let stdout := opt_or (stdout result) "" in
          let stderr := opt_or (stderr result) "" in
          let exit_code := returncode result in
          let stderr :=
            if negb (exit_code =? 0)%Z && str_in "Killed" stderr
            then killed_message else stderr in
          ret (stdout, stderr, exit_code))
         (ret ("", timeout_message, -1))) h.

(** *** run_multiple *)

(** A task is a dictionary with string values; [t.get(k, d)]. *)
Definition dict_get (t : gmap string string) (k d : string) : string :=
  default d (t !! k).

(** One entry of the list [run_multiple] returns. *)
Record result_dict := mkResult {
  output : string;
  error : string;
  exit_code : Z
}.

(** The part of a run of the thread pool the code cannot choose: the host
    each submitted call finds when a worker runs it, and the order in which
    [as_completed] hands the futures back. Futures are numbered in the
    order of submission. *)
Record schedule := mkSchedule {
  worker_host : nat -> host;
  completion : list nat
}.

(** The first loop: one future per task, and [futures_map] from the future
    to the index of its task. [futs] holds what [fut.result()] gives for
    each future. *)
Fixpoint submit_loop (sched : schedule) (i : nat) (tasks : list (gmap string string))
    (futs : list (py_result triple)) (futures_map : gmap nat nat)
    : list (py_result triple) * gmap nat nat :=
  match tasks with
  | [] => (futs, futures_map)
  | t :: tasks' =>
      let code := dict_get t "code" "" in
      let lang := dict_get t "lang" "python" in
      let fut := length futs in
      let outcome := fst (run_code code (Some lang) (worker_host sched fut)) in
      submit_loop sched (S i) tasks' (futs ++ [outcome])%list (<[fut := i]> futures_map)
  end.

(** The body of the second loop for one future: [fut.result()] under
    [try ... except Exception]. *)
Definition result_of (outcome : py_result triple) : result_dict :=
  let '(out, err, code) :=
    match outcome with
    | Return t => t
    | Raise e => ("", "Executor error: " +:+ str_exn e, -3)
    end in
  mkResult out err code.

(** The second loop, over the futures as they complete. [None] in
    [results] is Python's [None]. *)
Fixpoint collect_loop (order : list nat) (futs : list (py_result triple))
    (futures_map : gmap nat nat) (results : list (option result_dict))
    : py_result (list (option result_dict)) :=
  match order with
  | [] => Return results
  | fut :: order' =>
      match futures_map !! fut, futs !! fut with
      | Some i, Some outcome =>
          if bool_decide (i < length results)%nat then
            collect_loop order' futs futures_map (<[i := Some (result_of outcome)]> results)
          else Raise (IndexError "list assignment index out of range")
      | _, _ => Raise (KeyError (pretty fut))
      end
  end.

Definition run_multiple (tasks : list (gmap string string)) (max_workers : Z)
    (sched : schedule) : py_result (list (option result_dict)) :=
  let results := replicate (length tasks) None in
  if (max_workers <=? 0)%Z then
    Raise (ValueError "max_workers must be greater than 0")
  else
    let '(futs, futures_map) := submit_loop sched 0 tasks [] ∅ in
    collect_loop (completion sched) futs futures_map results.

End Executor.


(** ** Vocabulary of the statements *)

(** The language an entry point works with: [(lang or "python").lower()]. *)
Definition norm_lang (lang : option string) : string :=
  lower (opt_or lang "python").

(** The command line for a supported language, an entry file and a mounted
    directory. *)
Definition docker_cmd (l filename dir : string) : list string :=
  (DOCKER_BASE_FLAGS ++
   ["-v"; dir +:+ ":/app:ro"; "-w"; "/app";
    if String.eqb l "python" then PYTHON_IMAGE else NODE_IMAGE;
    if String.eqb l "python" then "python" else "node";
    filename])%list.

Definition is_TimeoutExpired (e : exn) : bool :=
  match e with
  | TimeoutExpired _ _ _ => true
  | _ => false
  end.

(** The commands handed to [subprocess.run], read off a journal. *)
Fixpoint invocations (j : list event) : list (list string) :=
  match j with
  | [] => []
  | EvSubprocessRun cmd :: j' => cmd :: invocations j'
  | _ :: j' => invocations j'
  end.

(** The staging events of a journal: directories made and files written. *)
Fixpoint stagings (j : list event) : list event :=
  match j with
  | [] => []
  | EvMkdtemp d :: j' => EvMkdtemp d :: stagings j'
  | EvWrite p c :: j' => EvWrite p c :: stagings j'
  | _ :: j' => stagings j'
  end.

Section Calls.

Variable provider : gmap string string -> list string -> py_result CompletedProcess.

Definition inline_tmpdir (h : host) : string :=
  "/tmp/tmp" +:+ pretty (tmp_seq h).

Definition inline_filename (l : string) : string :=
  if String.eqb l "python" then "user_code.py" else "user_code.js".

Definition inline_cmd (lang : option string) (h : host) : list string :=
  docker_cmd (norm_lang lang) (inline_filename (norm_lang lang)) (inline_tmpdir h).

(** The host at the moment [run_code] calls the provider: the directory
    made, the code written, the command printed. *)
Definition inline_staged (code : string) (lang : option string) (h : host) : host :=
  let d := inline_tmpdir h in
  let h1 := snd (mkdtemp h) in
  let h2 := snd (write_file (os_path.join d (inline_filename (norm_lang lang))) code h1) in
  snd (print ("DEBUG executor: running command: " +:+ join " " (inline_cmd lang h)) h2).

(** The answer of the provider to the call [run_code] makes. *)
Definition inline_answer (code : string) (lang : option string) (h : host)
    : py_result CompletedProcess :=
  provider (files (inline_staged code lang h)) (inline_cmd lang h).

(** What [run_code] makes of the answer (lines 71 to 86). *)
Definition inline_result (a : py_result CompletedProcess) : py_result triple :=
  match a with
  | Return p =>
      let err := opt_or (stderr p) "" in
      if (returncode p =? 137)%Z || str_in "Killed" err || str_in "OOM" err
      then Return ("", killed_message, 137)
      else if str_in "MemoryError" err then Return ("", err, returncode p)
      else Return (opt_or (stdout p) "", err, returncode p)
  | Raise (TimeoutExpired _ _ _) => Return ("", timeout_message, -1)
  | Raise e => Raise e
  end.

Definition dir_cmd (entry_filename : string) (lang : option string)
    (host_dir : string) : list string :=
  docker_cmd (norm_lang lang) entry_filename host_dir.

(** The host at the moment [run_code_from_dir] calls the provider. *)
Definition dir_staged (entry_filename : string) (lang : option string)
    (host_dir : string) (h : host) : host :=
  snd (print ("DEBUG executor: running command (from dir): " +:+
              join " " (dir_cmd entry_filename lang host_dir)) h).

(** The answer of the provider to the call [run_code_from_dir] makes. *)
Definition dir_answer (entry_filename : string) (lang : option string)
    (host_dir : string) (h : host) : py_result CompletedProcess :=
  provider (files h) (dir_cmd entry_filename lang host_dir).

(** What [run_code_from_dir] makes of the answer (lines 110 to 117). *)
Definition dir_result (a : py_result CompletedProcess) : py_result triple :=
  match a with
  | Return p =>
      let err := opt_or (stderr p) "" in
      Return (opt_or (stdout p) "",
              (if negb (returncode p =? 0)%Z && str_in "Killed" err
               then killed_message else err),
              returncode p)
  | Raise (TimeoutExpired _ _ _) => Return ("", timeout_message, -1)
  | Raise e => Raise e
  end.

(** What [fut.result()] gives for the future of task [t], the [k]-th
    submitted. *)
Definition task_outcome (sched : schedule) (k : nat) (t : gmap string string)
    : py_result triple :=
  fst (run_code provider (dict_get t "code" "") (Some (dict_get t "lang" "python"))
         (worker_host sched k)).

End Calls.

(** ** Hosts, providers and batches used as examples *)

Definition empty_host : host := mkHost ∅ ∅ 0 [].

(** A host that holds an extracted archive under [/srv/job]. *)
Definition job_host : host :=
  mkHost {[ "/srv/job/main.py" := "print(1)" ]} {[ "/srv/job" ]} 0 [].

(** The container is killed at the memory ceiling after it printed
    something: status 137, nothing on stderr. *)
Definition docker_oom_killed (fs : gmap string string) (cmd : list string)
    : py_result CompletedProcess :=
  Return (mkCompleted (Some "partial") (Some "") 137).

(** The shell of the container reports the kill on stderr. *)
Definition docker_says_killed (fs : gmap string string) (cmd : list string)
    : py_result CompletedProcess :=
  Return (mkCompleted (Some "partial") (Some "Killed") 1).

(** The docker client is not installed: [subprocess.run] raises
    [FileNotFoundError]. *)
Definition docker_missing (fs : gmap string string) (cmd : list string)
    : py_result CompletedProcess :=
  Raise (OtherException "[Errno 2] No such file or directory: 'docker'").

(** The program prints and then loops until the deadline. *)
Definition docker_hangs (fs : gmap string string) (cmd : list string)
    : py_result CompletedProcess :=
  Raise (TimeoutExpired "Command 'docker' timed out after 10 seconds"
           (Some "tick") (Some "warn")).

(** The interpreter reports its own allocation failure. *)
Definition docker_memory_error (fs : gmap string string) (cmd : list string)
    : py_result CompletedProcess :=
  Return (mkCompleted (Some "start") (Some "MemoryError") 1).

(** The node image cannot be started; python programs print [ok]. *)
Definition docker_without_node (fs : gmap string string) (cmd : list string)
    : py_result CompletedProcess :=
  if bool_decide (NODE_IMAGE ∈ cmd)
  then Raise (OtherException "[Errno 12] Cannot allocate memory")
  else Return (mkCompleted (Some "ok") (Some "") 0).

Definition python_task : gmap string string := {[ "code" := "print(1)" ]}.

Definition node_task : gmap string string :=
  {[ "code" := "console.log(1)"; "lang" := "node" ]}.

(** Two workers, each on a host of its own; the second future completes
    first. *)
Definition reversed_schedule : schedule :=
  mkSchedule (fun _ => empty_host) [1; 0]%nat.

(** ** The outcome read off a triple *)




(** A host whose extracted archive holds a directory [pkg] beside
    [main.py], and which has a file outside the archive. *)
Definition archive_host : host :=
  mkHost {[ "/srv/job/main.py" := "print(1)"; "/etc/hostname" := "box" ]}
         {[ "/srv/job"; "/srv/job/pkg" ]} 0 [].

(** ** app.py *)

(** *** Python values of the request handlers *)

(** [c.isspace()] for one character with code point below 256. *)
Definition isspace_char (c : ascii) : bool :=
  let n := N_of_ascii c in
  ((9 <=? n) && (n <=? 13) || (28 <=? n) && (n <=? 32) || (n =? 133) || (n =? 160))%N.

(** [s.lstrip()] *)
Fixpoint lstrip (s : string) : string :=
  match s with
  | EmptyString => EmptyString
  | String c s' => if isspace_char c then lstrip s' else s
  end.

(** [s.rstrip()] *)
Definition rstrip (s : string) : string :=
  String.rev (lstrip (String.rev s)).

(** [s.strip()] *)
Definition strip (s : string) : string := rstrip (lstrip s).

(** [s[:n]] *)
Fixpoint str_take (n : nat) (s : string) : string :=
  match n, s with
  | O, _ => EmptyString
  | S n', String c s' => String c (str_take n' s')
  | S _, EmptyString => EmptyString
  end.

(** [s * n] *)
Fixpoint str_mul (s : string) (n : nat) : string :=
  match n with
  | O => EmptyString
  | S n' => s +:+ str_mul s n'
  end.

Local Unset Elimination Schemes.

(** A parsed JSON body. Numbers are integers here. *)
Inductive json :=
| JNull
| JBool (b : bool)
| JInt (z : Z)
| JStr (s : string)
| JArr (items : list json)
| JObj (fields : list (string * json)).

Local Set Elimination Schemes.

(** The truth value of a parsed JSON value in Python. *)
Definition truthy (v : json) : bool :=
  match v with
  | JNull => false
  | JBool b => b
  | JInt z => negb (z =? 0)%Z
  | JStr s => negb (String.eqb s "")
  | JArr items => match items with [] => false | _ => true end
  | JObj fields => match fields with [] => false | _ => true end
  end.

(** [type(v).__name__] *)
Definition type_name (v : json) : string :=
  match v with
  | JNull => "NoneType"
  | JBool _ => "bool"
  | JInt _ => "int"
  | JStr _ => "str"
  | JArr _ => "list"
  | JObj _ => "dict"
  end.

(** Lookup in the [dict] a JSON object parses to: of two fields with one
    name the later one stays. *)
Fixpoint obj_get (k : string) (fields : list (string * json)) : option json :=
  match fields with
  | [] => None
  | (k', v) :: rest =>
      match obj_get k rest with
      | Some v' => Some v'
      | None => if String.eqb k k' then Some v else None
      end
  end.

(** [data.get(k, d)]: only a [dict] has the method. *)
Definition py_get (data : json) (k : string) (d : json) : py_result json :=
  match data with
  | JObj fields => Return (default d (obj_get k fields))
  | _ => Raise (OtherException
                  ("'" +:+ type_name data +:+ "' object has no attribute 'get'"))
  end.

(** [(v or "python").lower()]: only a [str] has the method. *)
Definition or_python_lower (v : json) : py_result string :=
  match (if truthy v then v else JStr "python") with
  | JStr s => Return (lower s)
  | w => Raise (OtherException
                  ("'" +:+ type_name w +:+ "' object has no attribute 'lower'"))
  end.

(** [request.get_json(silent=True) or {}]; [None] stands for a body that
    is not JSON. *)
Definition get_json_or_empty (body : option json) : json :=
  match body with
  | Some j => if truthy j then j else JObj []
  | None => JObj []
  end.

(** *** The history *)

Definition MAX_CODE_CHARS : Z := 5000.
Definition MAX_HISTORY : nat := 100.

(** One entry of the history, the dictionary [item]. *)
Module Item.
Record t := mk {
  timestamp : string;
  language : string;
  code : string;
  output : string;
  error : string;
  exit_code : Z
}.
End Item.

(** The server: the list [HISTORY], the table [runs] of [history.db]
    ([None] while the table has not been created) and the host the code
    runs on. *)
Record server := mkServer {
  HISTORY : list Item.t;
  runs_table : option (list Item.t);
  machine : host
}.

(** [CREATE TABLE IF NOT EXISTS runs] *)
Definition init_db (s : server) : server :=
  mkServer (HISTORY s) (Some (default [] (runs_table s))) (machine s).

(** The list is updated first, under the lock; then the row is inserted.
    Of the ways the insert can fail the model has the one the module
    itself brings about, the table that [init_db] has not created
    ([sqlite3.OperationalError]); the values saved are taken to fit their
    columns. *)
Definition save_history_item (item : Item.t) (s : server) : py_result unit * server :=
  let hist := item :: HISTORY s in
  let hist := if bool_decide (MAX_HISTORY < length hist)%nat then removelast hist else hist in
  match runs_table s with
  | Some rows => (Return tt, mkServer hist (Some (rows ++ [item])%list) (machine s))
  | None => (Raise (OtherException "no such table: runs"), mkServer hist None (machine s))
  end.

(** [try: save_history_item(item) except Exception: pass] *)
Definition try_save (item : Item.t) (s : server) : server :=
  snd (save_history_item item s).

(** *** The handlers *)

(** The body that [jsonify] is given. *)
Inductive body :=
| ErrorBody (error : string)
| RunBody (output error : string) (exit_code : Z)
| BatchBody (results : list (option result_dict))
| HistoryBody (history : list Item.t).

(** A response: the body and the status, 200 where the handler gives
    none. *)
Definition response : Type := body * Z.

Section App.

Variable provider : gmap string string -> list string -> py_result CompletedProcess.

(** [POST /run]. [now] is what [time.strftime] answers. An exception that
    leaves the handler is Flask's to answer. *)
Definition run (request_body : option json) (now : string) (s : server)
    : py_result response * server :=
  let data := get_json_or_empty request_body in
  match py_get data "code" (JStr "") with
  | Raise e => (Raise e, s)
  | Return code =>
  match py_get data "language" (JStr "python") with
  | Raise e => (Raise e, s)
  | Return l =>
  match or_python_lower l with
  | Raise e => (Raise e, s)
  | Return language =>
  match code with
  | JStr code =>
      if String.eqb (strip code) "" then
        (Return (ErrorBody "Field 'code' is required and must be a non-empty string.", 400), s)
      else if (MAX_CODE_CHARS <? Z.of_nat (String.length code))%Z then
        (Return (ErrorBody ("Code is too long (max " +:+ pretty MAX_CODE_CHARS +:+
                            " characters)."), 400), s)
      else
        match run_code provider code (Some language) (machine s) with
        | (Raise e, h') => (Raise e, mkServer (HISTORY s) (runs_table s) h')
        | (Return (out, err, status), h') =>
            let item := Item.mk now language (str_take 2000 code) out err status in
            let s' := try_save item (mkServer (HISTORY s) (runs_table s) h') in
            (Return (RunBody out err status, 200), s')
        end
  | _ =>
      (Return (ErrorBody "Field 'code' is required and must be a non-empty string.", 400), s)
  end end end end.

(** The loop of [run_batch] that saves one entry per task. [clock idx] is
    what [time.strftime] answers at entry [idx]. *)
Fixpoint save_batch (clock : nat -> string) (results : list (option result_dict))
    (idx : nat) (tasks : list (gmap string string)) (s : server)
    : py_result unit * server :=
  match tasks with
  | [] => (Return tt, s)
  | t :: tasks' =>
      match results !! idx with
      | Some (Some r) =>
          let item := Item.mk (clock idx) (dict_get t "language" "python")
                        (str_take 2000 (dict_get t "code" ""))
                        (output r) (error r) (exit_code r) in
          save_batch clock results (S idx) tasks' (try_save item s)
      | Some None =>
          (Raise (OtherException "'NoneType' object is not subscriptable"), s)
      | None => (Raise (IndexError "list index out of range"), s)
      end
  end.

(** [POST /run-batch], for a body whose tasks are dictionaries with string
    values; [None] stands for a body without the key [tasks]. The hosts the
    workers find are part of the schedule. *)
Definition run_batch (tasks : option (list (gmap string string)))
    (clock : nat -> string) (sched : schedule) (s : server)
    : py_result response * server :=
  let tasks := default [] tasks in
  match tasks with
  | [] => (Return (ErrorBody "Missing tasks list", 400), s)
  | _ =>
      if existsb (fun t => (MAX_CODE_CHARS <? Z.of_nat (String.length (dict_get t "code" "")))%Z)
           tasks
      then (Return (ErrorBody "A task code is too long", 400), s)
      else
        match run_multiple provider tasks 5 sched with
        | Raise e => (Raise e, s)
        | Return results =>
            match save_batch clock results 0 tasks s with
            | (Raise e, s') => (Raise e, s')
            | (Return _, s') => (Return (BatchBody results, 200), s')
            end
        end
  end.

(** [GET /history] *)
Definition history (s : server) : response := (HistoryBody (HISTORY s), 200).

End App.

(** The entries a list of saves leaves, one after the other. *)
Definition save_all (items : list Item.t) (s : server) : server :=
  foldl (fun s item => try_save item s) s items.

(** A server that has just been started, on a host. *)
Definition fresh_server (h : host) : server := init_db (mkServer [] None h).

(** The entry [run_batch] saves for task [t], the [i]-th of the batch:
    the language under the key [language], the code cut to 2000
    characters, and what the run of the task returned, or the executor
    error when it raised. *)
Definition batch_item
    (provider : gmap string string -> list string -> py_result CompletedProcess)
    (sched : schedule) (clock : nat -> string) (i : nat) (t : gmap string string)
    : Item.t :=
  match fst (run_code provider (dict_get t "code" "") (Some (dict_get t "lang" "python"))
               (worker_host sched i)) with
  | Return (out, err, status) =>
      Item.mk (clock i) (dict_get t "language" "python")
        (str_take 2000 (dict_get t "code" "")) out err status
  | Raise e =>
      Item.mk (clock i) (dict_get t "language" "python")
        (str_take 2000 (dict_get t "code" "")) "" ("Executor error: " +:+ str_exn e) (-3)
  end.

(** A code of 5010 characters, built as the last test of
    [test_security.py] builds its code. *)
Definition long_code : string := str_mul "print('x')" 501.

(** ** Strings *)



Lemma norm_lang_None : norm_lang None = "python".
Proof. reflexivity. Qed.

Lemma norm_lang_empty : norm_lang (Some "") = "python".
Proof. reflexivity. Qed.


Lemma supported_cases l : supported l = true -> l = "python" \/ l = "node".
Proof.
  unfold supported. intros H. apply orb_true_iff in H.
  destruct H as [H|H]; apply String.eqb_eq in H; auto.
Qed.

(** ** The command line *)

Lemma build_cmd_supported filename l dir :
  supported l = true ->
  _build_cmd_for_file filename (Some l) dir = Return (docker_cmd l filename dir).
Proof.
  intros H. destruct (supported_cases _ H) as [-> | ->]; reflexivity.
Qed.

(** [_build_cmd_for_file] raises [ValueError] on the languages the entry
    points turn away, so the entry points never see it raise. *)
Lemma build_cmd_unsupported filename lang dir :
  supported (norm_lang lang) = false ->
  _build_cmd_for_file filename lang dir =
    Raise (ValueError ("Unsupported language: " +:+ norm_lang lang)).
Proof.
  unfold supported, _build_cmd_for_file. fold (norm_lang lang).
  intros H. apply orb_false_iff in H. destruct H as [-> ->]. reflexivity.
Qed.

(** ** One run *)

Section SingleRun.

Variable provider : gmap string string -> list string -> py_result CompletedProcess.

Lemma run_code_unsupported code lang h :
  supported (norm_lang lang) = false ->
  run_code provider code lang h =
    (Return ("", "Unsupported language: " +:+ norm_lang lang, -2), h).
Proof.
  intros Hs. unfold run_code.
  change (lower (opt_or lang "python")) with (norm_lang lang).
  now rewrite Hs.
Qed.

Lemma run_code_supported code lang h :
  supported (norm_lang lang) = true ->
  run_code provider code lang h =
    (inline_result (inline_answer provider code lang h),
     rmtree (inline_tmpdir h)
       (record (EvSubprocessRun (inline_cmd lang h)) (inline_staged code lang h))).
Proof.
  intros Hs. unfold run_code.
  change (lower (opt_or lang "python")) with (norm_lang lang).
  rewrite Hs. cbn [negb].
  cbv beta iota zeta delta [with_TemporaryDirectory bind lift mkdtemp write_file
    print try_except_timeout subprocess_run ret].
  rewrite (build_cmd_supported _ _ _ Hs).
  cbv beta iota.
  match goal with
  | |- context [provider ?X ?Y] =>
      change (provider X Y) with (inline_answer provider code lang h)
  end.
  unfold inline_result.
  destruct (inline_answer provider code lang h) as [p|e].
  - destruct ((returncode p =? 137)%Z || _ || _); [reflexivity|].
    destruct (str_in "MemoryError" _); reflexivity.
  - destruct e; reflexivity.
Qed.

Lemma run_code_from_dir_unsupported entry lang host_dir h :
  supported (norm_lang lang) = false ->
  run_code_from_dir provider entry lang host_dir h =
    (Return ("", "Unsupported language: " +:+ norm_lang lang, -2), h).
Proof.
  intros Hs. unfold run_code_from_dir.
  change (lower (opt_or lang "python")) with (norm_lang lang).
  now rewrite Hs.
Qed.

Lemma run_code_from_dir_absent entry lang host_dir h :
  supported (norm_lang lang) = true ->
  os_path.exists_ (os_path.join host_dir entry) h = false ->
  run_code_from_dir provider entry lang host_dir h =
    (Return ("", "Entry file not found: " +:+ entry, -3), h).
Proof.
  intros Hs He. unfold run_code_from_dir.
  change (lower (opt_or lang "python")) with (norm_lang lang).
  rewrite Hs. cbn [negb]. now rewrite He.
Qed.

Lemma run_code_from_dir_present entry lang host_dir h :
  supported (norm_lang lang) = true ->
  os_path.exists_ (os_path.join host_dir entry) h = true ->
  run_code_from_dir provider entry lang host_dir h =
    (dir_result (dir_answer provider entry lang host_dir h),
     record (EvSubprocessRun (dir_cmd entry lang host_dir))
       (dir_staged entry lang host_dir h)).
Proof.
  intros Hs He. unfold run_code_from_dir.
  change (lower (opt_or lang "python")) with (norm_lang lang).
  rewrite Hs. cbn [negb]. rewrite He. cbn [negb].
  cbv beta iota zeta delta [bind lift print try_except_timeout subprocess_run ret].
  rewrite (build_cmd_supported _ _ _ Hs).
  cbv beta iota.
  match goal with
  | |- context [provider ?X ?Y] =>
      change (provider X Y) with (dir_answer provider entry lang host_dir h)
  end.
  unfold dir_result.
  destruct (dir_answer provider entry lang host_dir h) as [p|e].
  - reflexivity.
  - destruct e; reflexivity.
Qed.


End SingleRun.

(** ** A batch *)

Section Batch.

Variable provider : gmap string string -> list string -> py_result CompletedProcess.
Variable sched : schedule.

(** The first loop numbers the futures as it numbers the tasks. *)
Lemma submit_loop_spec tasks : forall i futs futures_map,
  length futs = i ->
  forall futs' futures_map',
  submit_loop provider sched i tasks futs futures_map = (futs', futures_map') ->
  length futs' = (i + length tasks)%nat /\
  (forall k t, tasks !! k = Some t ->
     futs' !! (i + k)%nat = Some (task_outcome provider sched (i + k) t) /\
     futures_map' !! (i + k)%nat = Some (i + k)%nat) /\
  (forall k, (k < i)%nat ->
     futs' !! k = futs !! k /\ futures_map' !! k = futures_map !! k).
Proof.
  induction tasks as [|t tasks IH]; intros i futs fm Hlen futs' fm' Hrun.
  - cbn in Hrun. injection Hrun as <- <-.
    split; [cbn; lia|]. split; [intros k t Hk; discriminate | auto].
  - cbn [submit_loop] in Hrun.
    apply IH in Hrun; [|rewrite length_app; cbn; lia].
    destruct Hrun as (Hl & Hnew & Hold).
    split; [cbn [length]; lia|]. split.
    + intros [|k] t' Hk.
      * cbn in Hk. injection Hk as <-.
        replace (i + 0)%nat with i by lia.
        destruct (Hold i ltac:(lia)) as [-> ->]. subst i.
        rewrite lookup_app_r by lia.
        rewrite Nat.sub_diag, lookup_insert_eq. cbn.
        split; reflexivity.
      * cbn in Hk. replace (i + S k)%nat with (S i + k)%nat by lia.
        now apply Hnew.
    + intros k Hk. destruct (Hold k ltac:(lia)) as [-> ->].
      rewrite lookup_app_l by lia.
      rewrite lookup_insert_ne by lia. auto.
Qed.

(** The second loop fills the slot of every future it is handed, whatever
    the order, and touches no other slot. *)
Lemma collect_loop_spec futs (futures_map : gmap nat nat) order :
  forall results : list (option result_dict),
  (forall k, k ∈ order ->
     is_Some (futs !! k) /\ futures_map !! k = Some k /\ (k < length results)%nat) ->
  exists results',
    collect_loop order futs futures_map results = Return results' /\
    length results' = length results /\
    (forall k o, k ∈ order -> futs !! k = Some o ->
       results' !! k = Some (Some (result_of o))) /\
    (forall k, k ∉ order -> results' !! k = results !! k).
Proof.
  induction order as [|fut order IH]; intros results Hok.
  - exists results. cbn. repeat split; auto. intros k o Hk. inversion Hk.
  - destruct (Hok fut ltac:(left)) as ([o Ho] & Hm & Hlt).
    cbn [collect_loop]. rewrite Hm, Ho.
    rewrite bool_decide_eq_true_2 by exact Hlt.
    destruct (IH (<[fut := Some (result_of o)]> results)) as (res & Hrun & Hl & Hin & Hout).
    { intros k Hk. rewrite length_insert. apply Hok. now right. }
    exists res. split; [exact Hrun|].
    rewrite length_insert in Hl. split; [exact Hl|]. split.
    + intros k o' Hk Ho'.
      destruct (decide (k ∈ order)) as [Hk'|Hk']; [now apply Hin|].
      apply elem_of_cons in Hk. destruct Hk as [->|Hk]; [|contradiction].
      rewrite (Hout _ Hk'), list_lookup_insert_eq by exact Hlt.
      congruence.
    + intros k Hk. apply not_elem_of_cons in Hk. destruct Hk as [Hne Hk].
      rewrite (Hout _ Hk). now apply list_lookup_insert_ne.
Qed.

(** [run_multiple] on a schedule that completes every future once. *)
Lemma run_multiple_spec tasks max_workers :
  0 < max_workers ->
  Permutation (completion sched) (seq 0 (length tasks)) ->
  exists results,
    run_multiple provider tasks max_workers sched = Return results /\
    length results = length tasks /\
    forall i t, tasks !! i = Some t ->
      results !! i = Some (Some (result_of (task_outcome provider sched i t))).
Proof.
  intros Hw Hperm. unfold run_multiple.
  rewrite (proj2 (Z.leb_gt _ _) Hw).
  destruct (submit_loop provider sched 0 tasks [] ∅) as [futs fm] eqn:Hsub.
  apply submit_loop_spec in Hsub; [|reflexivity].
  destruct Hsub as (Hl & Hnew & _). cbn in Hl, Hnew.
  assert (Hmem : forall k, k ∈ completion sched <-> (k < length tasks)%nat).
  { intros k. rewrite Hperm, elem_of_seq. lia. }
  destruct (collect_loop_spec futs fm (completion sched)
              (replicate (length tasks) None)) as (res & Hrun & Hlen & Hin & _).
  { intros k Hk. apply Hmem in Hk. rewrite length_replicate.
    destruct (lookup_lt_is_Some_2 tasks k Hk) as [t Ht].
    destruct (Hnew k t Ht) as [Hf Hm]. split; [eauto|]. split; [exact Hm | exact Hk]. }
  exists res. split; [exact Hrun|].
  rewrite length_replicate in Hlen. split; [exact Hlen|].
  intros i t Ht. destruct (Hnew i t Ht) as [Hf _].
  apply (Hin i); [|exact Hf].
  apply Hmem. apply lookup_lt_is_Some_1. eauto.
Qed.

End Batch.

(** ** Properties of one run *)

(** C1 (the killed rewrite is the same for inline and directory runs), at
    answers where it is not. On one and the same answer of the provider,
    status 137 with output and an empty stderr, [run_code] reports the kill
    and [run_code_from_dir] passes the answer through; on an answer with
    [Killed] on stderr and status 1, [run_code] drops stdout and reports
    137 while [run_code_from_dir] keeps stdout and the status; on [OOM] on
    stderr only [run_code] rewrites. *)
Theorem C1_killed_rewrite_differs_for_directory_runs :
  (inline_answer docker_oom_killed "print(1)" (Some "python") empty_host =
     dir_answer docker_oom_killed "main.py" (Some "python") "/srv/job" job_host /\
   fst (run_code docker_oom_killed "print(1)" (Some "python") empty_host) =
     Return ("", "Process killed (likely out of memory > 128m).", 137) /\
   fst (run_code_from_dir docker_oom_killed "main.py" (Some "python") "/srv/job" job_host) =
     Return ("partial", "", 137)) /\
  (fst (run_code docker_says_killed "print(1)" (Some "python") empty_host) =
     Return ("", "Process killed (likely out of memory > 128m).", 137) /\
   fst (run_code_from_dir docker_says_killed "main.py" (Some "python") "/srv/job" job_host) =
     Return ("partial", "Process killed (likely out of memory > 128m).", 1)) /\
  (inline_result (Return (mkCompleted (Some "") (Some "OOM") 1)) =
     Return ("", "Process killed (likely out of memory > 128m).", 137) /\
   dir_result (Return (mkCompleted (Some "") (Some "OOM") 1)) =
     Return ("", "OOM", 1)).
Proof. vm_compute. repeat split. Qed.

(** C2, as stated, fails where the docker client cannot be started: the
    exception of [subprocess.run] leaves [run_code], no triple is
    returned. *)
Lemma C2_run_code_raises_when_docker_is_missing :
  fst (run_code docker_missing "print(1)" (Some "python") empty_host) =
    Raise (OtherException "[Errno 2] No such file or directory: 'docker'") /\
  ~ (exists t : triple,
       fst (run_code docker_missing "print(1)" (Some "python") empty_host) = Return t).
Proof.
  assert (H : fst (run_code docker_missing "print(1)" (Some "python") empty_host) =
              Raise (OtherException "[Errno 2] No such file or directory: 'docker'"))
    by (vm_compute; reflexivity).
  split; [exact H|]. intros [t Ht]. rewrite H in Ht. discriminate.
Qed.

(** C2, amended: [run_code] ends in exactly one way on every input. For an
    unsupported language it returns the unsupported triple; when the
    provider answers it returns a triple; when the deadline passes it
    returns the timeout triple; and when the provider raises anything else
    that exception leaves [run_code] as it is. *)
Theorem C2_run_code_returns_or_reraises provider code lang h :
  let r := fst (run_code provider code lang h) in
  if supported (norm_lang lang) then
    match inline_answer provider code lang h with
    | Return _ => exists t, r = Return t
    | Raise e =>
        if is_TimeoutExpired e then r = Return ("", timeout_message, -1)
        else r = Raise e
    end
  else r = Return ("", "Unsupported language: " +:+ norm_lang lang, -2).
Proof.
  cbv zeta. destruct (supported (norm_lang lang)) eqn:Hs.
  - rewrite (run_code_supported _ _ _ _ Hs). cbn [fst].
    destruct (inline_answer provider code lang h) as [p|e]; cbn [inline_result].
    + destruct (_ || _ || _); [eauto|].
      destruct (str_in "MemoryError" _); eauto.
    + destruct e; reflexivity.
  - now rewrite (run_code_unsupported _ _ _ _ Hs).
Qed.

(** C3: when the process of an inline run ends with status 137, or its
    stderr contains [Killed] or [OOM] (as written, capitals included),
    [run_code] returns an empty stdout, the fixed message that names the
    memory limit, and 137. *)
Theorem C3_killed_run_reports_resource_kill provider code lang h p :
  supported (norm_lang lang) = true ->
  inline_answer provider code lang h = Return p ->
  returncode p = 137 \/
  str_in "Killed" (opt_or (stderr p) "") = true \/
  str_in "OOM" (opt_or (stderr p) "") = true ->
  fst (run_code provider code lang h) = Return ("", killed_message, 137) /\
  killed_message = "Process killed (likely out of memory > " +:+ MEMORY_LIMIT +:+ ")." /\
  str_in MEMORY_LIMIT killed_message = true.
Proof.
  intros Hs Ha Hk. rewrite (run_code_supported _ _ _ _ Hs), Ha. cbn [fst inline_result].
  split; [|split; reflexivity].
  assert (Hb : (returncode p =? 137)%Z || str_in "Killed" (opt_or (stderr p) "")
               || str_in "OOM" (opt_or (stderr p) "") = true).
  { destruct Hk as [Hk|[Hk|Hk]].
    - apply Z.eqb_eq in Hk. now rewrite Hk.
    - rewrite Hk. now rewrite orb_true_r.
    - rewrite Hk. now rewrite orb_true_r. }
  now rewrite Hb.
Qed.

Lemma C3_killed_run_witness :
  supported (norm_lang (Some "Python")) = true /\
  fst (run_code docker_says_killed "x = 'a' * 10**10" (Some "Python") empty_host) =
    Return ("", "Process killed (likely out of memory > 128m).", 137).
Proof.
  split; [reflexivity|].
  refine (proj1 (C3_killed_run_reports_resource_kill docker_says_killed _ _ _
                   (mkCompleted (Some "partial") (Some "Killed") 1) _ _ _)).
  - reflexivity.
  - reflexivity.
  - right. left. reflexivity.
Defined.

(** The markers are matched as written: lower case does not count. *)
Example kill_marker_is_case_sensitive :
  str_in "Killed" "killed" = false /\ str_in "OOM" "oom" = false /\
  fst (run_code (fun _ _ => Return (mkCompleted (Some "out") (Some "killed by oom") 1))
         "print(1)" None empty_host) = Return ("out", "killed by oom", 1).
Proof. vm_compute. repeat split. Qed.

(** C5, as stated, fails: what the process printed before the deadline is
    in the exception, and [run_code] returns none of it. *)
Lemma C5_timeout_drops_captured_output :
  inline_answer docker_hangs "while True: pass" (Some "python") empty_host =
    Raise (TimeoutExpired "Command 'docker' timed out after 10 seconds"
             (Some "tick") (Some "warn")) /\
  fst (run_code docker_hangs "while True: pass" (Some "python") empty_host) =
    Return ("", "Execution timed out after 10 seconds.", -1) /\
  ~ (exists code : Z,
       fst (run_code docker_hangs "while True: pass" (Some "python") empty_host) =
         Return ("tick", "warn", code)).
Proof.
  assert (H : fst (run_code docker_hangs "while True: pass" (Some "python") empty_host) =
              Return ("", "Execution timed out after 10 seconds.", -1))
    by (vm_compute; reflexivity).
  split; [reflexivity|]. split; [exact H|].
  intros [c Hc]. rewrite H in Hc. discriminate.
Qed.

(** C5, amended: when the deadline of an inline run passes, [run_code]
    returns an empty stdout, the fixed timeout message and [-1], whatever
    was captured. *)
Theorem C5_timeout_returns_fixed_triple provider code lang h msg out err :
  supported (norm_lang lang) = true ->
  inline_answer provider code lang h = Raise (TimeoutExpired msg out err) ->
  fst (run_code provider code lang h) = Return ("", timeout_message, -1) /\
  timeout_message = "Execution timed out after 10 seconds.".
Proof.
  intros Hs Ha. rewrite (run_code_supported _ _ _ _ Hs), Ha.
  split; reflexivity.
Qed.

Lemma C5_timeout_witness :
  supported (norm_lang (Some "python")) = true /\
  fst (run_code docker_hangs "while True: pass" (Some "python") empty_host) =
    Return ("", timeout_message, -1).
Proof.
  split; [reflexivity|].
  refine (proj1 (C5_timeout_returns_fixed_triple docker_hangs _ _ _
                   "Command 'docker' timed out after 10 seconds"
                   (Some "tick") (Some "warn") _ _)); reflexivity.
Defined.

(** The directory run treats the deadline the same way. *)
Lemma run_code_from_dir_timeout provider entry lang host_dir h msg out err :
  supported (norm_lang lang) = true ->
  os_path.exists_ (os_path.join host_dir entry) h = true ->
  dir_answer provider entry lang host_dir h = Raise (TimeoutExpired msg out err) ->
  fst (run_code_from_dir provider entry lang host_dir h) =
    Return ("", timeout_message, -1).
Proof.
  intros Hs He Ha. now rewrite (run_code_from_dir_present _ _ _ _ _ Hs He), Ha.
Qed.




(** C7: for a language outside python and node both entry points return
    the unsupported triple and leave the host as it was: nothing staged,
    the provider not called. *)
Theorem C7_unsupported_language_before_any_effect provider code lang h :
  supported (norm_lang lang) = false ->
  run_code provider code lang h =
    (Return ("", "Unsupported language: " +:+ norm_lang lang, -2), h) /\
  stagings (journal (snd (run_code provider code lang h))) = stagings (journal h) /\
  invocations (journal (snd (run_code provider code lang h))) = invocations (journal h) /\
  forall entry host_dir,
    run_code_from_dir provider entry lang host_dir h =
      (Return ("", "Unsupported language: " +:+ norm_lang lang, -2), h).
Proof.
  intros Hs. rewrite (run_code_unsupported _ _ _ _ Hs).
  repeat split. intros entry host_dir.
  apply run_code_from_dir_unsupported, Hs.
Qed.

Lemma C7_unsupported_language_witness :
  supported (norm_lang (Some "Ruby")) = false /\
  run_code docker_oom_killed "puts 1" (Some "Ruby") empty_host =
    (Return ("", "Unsupported language: ruby", -2), empty_host).
Proof.
  split; [reflexivity|].
  refine (proj1 (C7_unsupported_language_before_any_effect docker_oom_killed _ _ _ _)).
  reflexivity.
Defined.




(** An entry that is there is run: the provider is called once. *)
Example present_entry_is_run :
  invocations (journal (snd (run_code_from_dir docker_oom_killed "main.py"
                               (Some "python") "/srv/job" job_host))) =
    [docker_cmd "python" "main.py" "/srv/job"].
Proof. vm_compute. reflexivity. Qed.

(** ** Properties of a batch *)

(** C4: for [N] tasks, a positive pool size and any order in which the [N]
    futures complete, [run_multiple] returns [N] results, and the result at
    [i] is made of the output, the error text and the exit code that the
    run of task [i] returned (of the executor error, had that run
    raised). *)
Theorem C4_results_follow_request_order provider sched tasks max_workers :
  0 < max_workers ->
  Permutation (completion sched) (seq 0 (length tasks)) ->
  exists results,
    run_multiple provider tasks max_workers sched = Return results /\
    length results = length tasks /\
    forall i t, tasks !! i = Some t ->
      results !! i =
        Some (Some
          match fst (run_code provider (dict_get t "code" "")
                       (Some (dict_get t "lang" "python")) (worker_host sched i)) with
          | Return (out, err, code) => mkResult out err code
          | Raise e => mkResult "" ("Executor error: " +:+ str_exn e) (-3)
          end).
Proof.
  intros Hw Hperm.
  destruct (run_multiple_spec provider sched tasks max_workers Hw Hperm)
    as (results & Hrun & Hlen & Hres).
  exists results. split; [exact Hrun|]. split; [exact Hlen|].
  intros i t Ht. rewrite (Hres i t Ht). unfold task_outcome, result_of.
  destruct (fst (run_code provider _ _ _)) as [[[out err] code]|e]; reflexivity.
Qed.

Lemma C4_results_order_witness :
  0 < 5 /\
  Permutation [2; 0; 1]%nat (seq 0 3) /\
  exists results,
    run_multiple docker_without_node [python_task; node_task; python_task] 5
      (mkSchedule (fun _ => empty_host) [2; 0; 1]%nat) = Return results /\
    length results = 3%nat /\
    forall i t, [python_task; node_task; python_task] !! i = Some t ->
      results !! i =
        Some (Some
          match fst (run_code docker_without_node (dict_get t "code" "")
                       (Some (dict_get t "lang" "python")) empty_host) with
          | Return (out, err, code) => mkResult out err code
          | Raise e => mkResult "" ("Executor error: " +:+ str_exn e) (-3)
          end).
Proof.
  assert (Hp : Permutation [2; 0; 1]%nat (seq 0 3)).
  { cbn. apply (Permutation_cons_app [0%nat; 1%nat] []). reflexivity. }
  split; [lia|]. split; [exact Hp|].
  apply (C4_results_follow_request_order docker_without_node
           (mkSchedule (fun _ => empty_host) [2; 0; 1]%nat)
           [python_task; node_task; python_task] 5); [lia | exact Hp].
Defined.

(** The same batch, evaluated. *)
Example batch_out_of_order :
  run_multiple docker_without_node [python_task; node_task; python_task] 5
    (mkSchedule (fun _ => empty_host) [2; 0; 1]%nat) =
  Return [Some (mkResult "ok" "" 0);
          Some (mkResult "" "Executor error: [Errno 12] Cannot allocate memory" (-3));
          Some (mkResult "ok" "" 0)].
Proof. vm_compute. reflexivity. Qed.

(** C9: when the run of task [i] raises, slot [i] holds the executor-error
    result with exit code [-3], and every other slot [j] holds the output,
    the error text and the exit code that the run of task [j] returned (its
    own executor error, had that run raised too). *)
Theorem C9_failure_stays_in_its_slot provider sched tasks max_workers i ti e :
  0 < max_workers ->
  Permutation (completion sched) (seq 0 (length tasks)) ->
  tasks !! i = Some ti ->
  task_outcome provider sched i ti = Raise e ->
  exists results,
    run_multiple provider tasks max_workers sched = Return results /\
    results !! i = Some (Some (mkResult "" ("Executor error: " +:+ str_exn e) (-3))) /\
    forall j tj, j <> i -> tasks !! j = Some tj ->
      results !! j =
        Some (Some
          match fst (run_code provider (dict_get tj "code" "")
                       (Some (dict_get tj "lang" "python")) (worker_host sched j)) with
          | Return (out, err, code) => mkResult out err code
          | Raise e' => mkResult "" ("Executor error: " +:+ str_exn e') (-3)
          end).
Proof.
  intros Hw Hperm Hi He.
  destruct (run_multiple_spec provider sched tasks max_workers Hw Hperm)
    as (results & Hrun & _ & Hres).
  exists results. split; [exact Hrun|]. split.
  - rewrite (Hres i ti Hi), He. reflexivity.
  - intros j tj _ Hj. rewrite (Hres j tj Hj). unfold task_outcome, result_of.
    destruct (fst (run_code provider _ _ _)) as [[[out err] code]|e']; reflexivity.
Qed.

Lemma C9_failure_isolated_witness :
  0 < 5 /\
  Permutation (completion reversed_schedule) (seq 0 2) /\
  [python_task; node_task] !! 1%nat = Some node_task /\
  task_outcome docker_without_node reversed_schedule 1 node_task =
    Raise (OtherException "[Errno 12] Cannot allocate memory") /\
  exists results,
    run_multiple docker_without_node [python_task; node_task] 5 reversed_schedule =
      Return results /\
    results !! 1%nat =
      Some (Some (mkResult "" "Executor error: [Errno 12] Cannot allocate memory" (-3))) /\
    forall j tj, j <> 1%nat -> [python_task; node_task] !! j = Some tj ->
      results !! j =
        Some (Some
          match fst (run_code docker_without_node (dict_get tj "code" "")
                       (Some (dict_get tj "lang" "python"))
                       (worker_host reversed_schedule j)) with
          | Return (out, err, code) => mkResult out err code
          | Raise e' => mkResult "" ("Executor error: " +:+ str_exn e') (-3)
          end).
Proof.
  assert (Hp : Permutation (completion reversed_schedule) (seq 0 2)) by apply perm_swap.
  assert (He : task_outcome docker_without_node reversed_schedule 1 node_task =
               Raise (OtherException "[Errno 12] Cannot allocate memory"))
    by (vm_compute; reflexivity).
  split; [lia|]. split; [exact Hp|]. split; [reflexivity|]. split; [exact He|].
  apply (C9_failure_stays_in_its_slot docker_without_node reversed_schedule
           [python_task; node_task] 5 1 node_task
           (OtherException "[Errno 12] Cannot allocate memory"));
    [lia | exact Hp | reflexivity | exact He].
Defined.

(** A task is read by the keys [code] and [lang]; any other key, the
    [language] of the web requests included, is not looked at. *)
Lemma task_language_key_is_not_read provider sched k (c l : string) :
  task_outcome provider sched k {[ "code" := c; "language" := l ]} =
  fst (run_code provider c (Some "python") (worker_host sched k)).
Proof. reflexivity. Qed.

(** ** The language argument *)


(** In use: the capitals of [NODE] do not matter. *)
Example language_in_capitals :
  fst (run_code docker_without_node "console.log(1)" (Some "NODE") empty_host) =
    fst (run_code docker_without_node "console.log(1)" (Some "node") empty_host) /\
  invocations (journal (snd (run_code docker_without_node "console.log(1)"
                               (Some "NODE") empty_host))) =
    [docker_cmd "node" "user_code.js" "/tmp/tmp0"].
Proof. vm_compute. split; reflexivity. Qed.

(** ** More on strings and paths *)

Lemma startswith_app p s : startswith p (p +:+ s) = true.
Proof.
  induction p as [|a p IH]; [reflexivity|].
  change (startswith (String a p) (String a (p +:+ s)) = true).
  cbn [startswith]. now rewrite Ascii.eqb_refl.
Qed.

Lemma rev_app_append s1 : forall s2 acc,
  String.rev_app (s1 +:+ s2) acc = String.rev_app s2 (String.rev_app s1 acc).
Proof.
  induction s1 as [|a s1 IH]; intros s2 acc; [reflexivity|].
  change (String.rev_app (s1 +:+ s2) (String a acc) =
          String.rev_app s2 (String.rev_app s1 (String a acc))).
  apply IH.
Qed.

Lemma rev_snoc pre c : String.rev (pre +:+ String c "") = String c (String.rev pre).
Proof. unfold String.rev. now rewrite rev_app_append. Qed.

Lemma append_assoc (s1 s2 s3 : string) : (s1 +:+ s2) +:+ s3 = s1 +:+ (s2 +:+ s3).
Proof.
  induction s1 as [|a s1 IH]; [reflexivity|].
  change (String a ((s1 +:+ s2) +:+ s3) = String a (s1 +:+ (s2 +:+ s3))).
  now rewrite IH.
Qed.

Lemma pretty_N_go_suffix x : forall s, exists pre, pretty_N_go x s = pre +:+ s.
Proof.
  induction (N.lt_wf_0 x) as [x _ IH]; intros s.
  destruct (decide (x = 0)%N) as [->|Hx].
  - exists "". now rewrite pretty_N_go_0.
  - rewrite pretty_N_go_step by lia.
    destruct (IH (x `div` 10)%N ltac:(apply N.div_lt; lia)
                (String (pretty_N_char (x `mod` 10)) s)) as [pre Hpre].
    exists (pre +:+ String (pretty_N_char (x `mod` 10)) "").
    now rewrite Hpre, append_assoc.
Qed.

Lemma pretty_N_char_digit x : pretty_N_char x <> "/"%char.
Proof. unfold pretty_N_char. repeat case_match; discriminate. Qed.

(** The decimal writing of a number ends in a digit. *)
Lemma pretty_nat_last (n : nat) :
  exists pre c, pretty n = pre +:+ String c "" /\ c <> "/"%char.
Proof.
  unfold pretty, pretty_nat, pretty, pretty_N.
  destruct (decide (N.of_nat n = 0)%N) as [_|Hn].
  - exists "", "0"%char. split; [reflexivity | discriminate].
  - rewrite pretty_N_go_step by lia.
    destruct (pretty_N_go_suffix (N.of_nat n `div` 10)
                (String (pretty_N_char (N.of_nat n `mod` 10)) "")) as [pre Hpre].
    exists pre, (pretty_N_char (N.of_nat n `mod` 10)).
    split; [exact Hpre | apply pretty_N_char_digit].
Qed.

(** The staging directory and a relative name join with one slash. *)
Lemma tmpdir_join h f :
  startswith "/" f = false ->
  os_path.join (inline_tmpdir h) f = inline_tmpdir h +:+ "/" +:+ f.
Proof.
  intros Hf. unfold os_path.join. rewrite Hf.
  unfold inline_tmpdir.
  destruct (pretty_nat_last (tmp_seq h)) as (pre & c & -> & Hc).
  rewrite <- append_assoc, rev_snoc.
  change (("/tmp/tmp" +:+ pre) +:+ String c "" =? "")
    with ((String "/" ("tmp/tmp" +:+ pre +:+ String c "")) =? "").
  cbn [String.eqb startswith].
  destruct (Ascii.eqb_spec "/" c) as [<-|_]; [contradiction|reflexivity].
Qed.

Lemma inline_filename_relative l : startswith "/" (inline_filename l) = false.
Proof. unfold inline_filename. now destruct (String.eqb l "python"). Qed.

Lemma invocations_app j1 j2 :
  invocations (j1 ++ j2) = (invocations j1 ++ invocations j2)%list.
Proof.
  induction j1 as [|ev j1 IH]; [reflexivity|].
  destruct ev; cbn; now rewrite IH.
Qed.

Lemma stagings_app j1 j2 :
  stagings (j1 ++ j2) = (stagings j1 ++ stagings j2)%list.
Proof.
  induction j1 as [|ev j1 IH]; [reflexivity|].
  destruct ev; cbn; now rewrite IH.
Qed.

(** ** More on one run *)

(** X1: [_build_cmd_for_file] returns a command exactly for python and
    node, in any case of the letters: the fixed docker flags, the directory
    mounted read-only on [/app], the image, the interpreter and the file
    name as one argument. For any other language it raises [ValueError]. *)
Theorem build_cmd_for_file_characterised filename lang dir :
  _build_cmd_for_file filename lang dir =
    if supported (norm_lang lang) then
      Return (DOCKER_BASE_FLAGS ++
              ["-v"; dir +:+ ":/app:ro"; "-w"; "/app";
               if String.eqb (norm_lang lang) "python" then PYTHON_IMAGE else NODE_IMAGE;
               if String.eqb (norm_lang lang) "python" then "python" else "node";
               filename])%list
    else Raise (ValueError ("Unsupported language: " +:+ norm_lang lang)).
Proof.
  destruct (supported (norm_lang lang)) eqn:Hs.
  - unfold _build_cmd_for_file. fold (norm_lang lang).
    destruct (supported_cases _ Hs) as [-> | ->]; reflexivity.
  - now apply build_cmd_unsupported.
Qed.


(** X3: [run_code_from_dir] calls the provider once when the language is
    supported and the entry exists on the host, and not at all otherwise;
    the command mounts [host_dir] read-only and names the entry as one
    argument, after the fixed docker flags. *)
Theorem run_code_from_dir_invocations provider entry lang host_dir h :
  invocations (journal (snd (run_code_from_dir provider entry lang host_dir h))) =
    (invocations (journal h) ++
     if supported (norm_lang lang) && os_path.exists_ (os_path.join host_dir entry) h then
       [DOCKER_BASE_FLAGS ++
        ["-v"; host_dir +:+ ":/app:ro"; "-w"; "/app";
         if String.eqb (norm_lang lang) "python" then PYTHON_IMAGE else NODE_IMAGE;
         if String.eqb (norm_lang lang) "python" then "python" else "node";
         entry]]
     else [])%list.
Proof.
  destruct (supported (norm_lang lang)) eqn:Hs; cbn [andb].
  - destruct (os_path.exists_ (os_path.join host_dir entry) h) eqn:He.
    + rewrite (run_code_from_dir_present _ _ _ _ _ Hs He).
      cbn [snd record journal dir_staged print].
      rewrite <- app_assoc, invocations_app. reflexivity.
    + rewrite (run_code_from_dir_absent _ _ _ _ _ Hs He). cbn [snd].
      now rewrite app_nil_r.
  - rewrite (run_code_from_dir_unsupported _ _ _ _ _ Hs). cbn [snd].
    now rewrite app_nil_r.
Qed.

(** X4: a run that is neither killed nor a memory error is passed through:
    when the status is not 137 and stderr contains none of [Killed], [OOM]
    and [MemoryError], [run_code] returns stdout, stderr and the status of
    the process as they are. *)
Theorem run_code_passes_plain_run_through provider code lang h p :
  supported (norm_lang lang) = true ->
  inline_answer provider code lang h = Return p ->
  returncode p <> 137 ->
  str_in "Killed" (opt_or (stderr p) "") = false ->
  str_in "OOM" (opt_or (stderr p) "") = false ->
  str_in "MemoryError" (opt_or (stderr p) "") = false ->
  fst (run_code provider code lang h) =
    Return (opt_or (stdout p) "", opt_or (stderr p) "", returncode p).
Proof.
  intros Hs Ha Hrc Hk Ho Hm.
  rewrite (run_code_supported _ _ _ _ Hs), Ha. cbn [fst inline_result].
  apply Z.eqb_neq in Hrc. now rewrite Hrc, Hk, Ho, Hm.
Qed.

Lemma run_code_passes_plain_run_through_witness :
  fst (run_code docker_without_node "print(1)" (Some "python") empty_host) =
    Return ("ok", "", 0).
Proof.
  refine (run_code_passes_plain_run_through docker_without_node _ _ _
            (mkCompleted (Some "ok") (Some "") 0) _ _ _ _ _ _);
    try reflexivity.
  cbn. lia.
Defined.

(** X5: [run_code] reports exit code 0 only for a process that ended with
    status 0 and wrote no kill marker: never for an unsupported language, a
    timeout or a kill. The stderr returned is that of the process, and
    stdout too unless stderr contains [MemoryError]. *)
Theorem run_code_success_is_real provider code lang h out err :
  fst (run_code provider code lang h) = Return (out, err, 0) ->
  supported (norm_lang lang) = true /\
  exists p,
    inline_answer provider code lang h = Return p /\
    returncode p = 0 /\
    err = opt_or (stderr p) "" /\
    str_in "Killed" err = false /\ str_in "OOM" err = false /\
    (out = opt_or (stdout p) "" \/ (out = "" /\ str_in "MemoryError" err = true)).
Proof.
  intros Hr. destruct (supported (norm_lang lang)) eqn:Hs.
  - split; [reflexivity|].
    rewrite (run_code_supported _ _ _ _ Hs) in Hr. cbn [fst] in Hr.
    destruct (inline_answer provider code lang h) as [p|e]; cbn [inline_result] in Hr.
    + exists p. split; [reflexivity|].
      destruct (returncode p =? 137)%Z eqn:H137; [discriminate|].
      destruct (str_in "Killed" (opt_or (stderr p) "")) eqn:Hk; [discriminate|].
      destruct (str_in "OOM" (opt_or (stderr p) "")) eqn:Ho; [discriminate|].
      cbn [orb] in Hr.
      destruct (str_in "MemoryError" (opt_or (stderr p) "")) eqn:Hm;
        injection Hr as <- <- ->; rewrite ?Hk, ?Ho, ?Hm; auto 10.
    + destruct e; discriminate.
  - rewrite (run_code_unsupported _ _ _ _ Hs) in Hr. discriminate.
Qed.

Lemma run_code_success_is_real_witness :
  supported (norm_lang (Some "python")) = true /\
  exists p,
    inline_answer docker_without_node "print(1)" (Some "python") empty_host = Return p /\
    returncode p = 0 /\
    "" = opt_or (stderr p) "" /\
    str_in "Killed" "" = false /\ str_in "OOM" "" = false /\
    ("ok" = opt_or (stdout p) "" \/ ("ok" = "" /\ str_in "MemoryError" "" = true)).
Proof.
  apply (run_code_success_is_real docker_without_node "print(1)" (Some "python")
           empty_host "ok" "").
  vm_compute. reflexivity.
Defined.



(** X7: what the provider is asked in an inline run: the files of the host
    with the code stored, as it is, in the file the command names inside
    the directory the command mounts. The result of [run_code] is made from
    the answer to that question. *)
Theorem run_code_runs_the_staged_code provider code lang h :
  supported (norm_lang lang) = true ->
  let d := "/tmp/tmp" +:+ pretty (tmp_seq h) in
  let filename := if String.eqb (norm_lang lang) "python"
                  then "user_code.py" else "user_code.js" in
  (<[d +:+ "/" +:+ filename := code]> (files h)) !! (d +:+ "/" +:+ filename) = Some code /\
  fst (run_code provider code lang h) =
    inline_result
      (provider (<[d +:+ "/" +:+ filename := code]> (files h))
         (DOCKER_BASE_FLAGS ++
          ["-v"; d +:+ ":/app:ro"; "-w"; "/app";
           if String.eqb (norm_lang lang) "python" then PYTHON_IMAGE else NODE_IMAGE;
           if String.eqb (norm_lang lang) "python" then "python" else "node";
           filename])%list).
Proof.
  intros Hs d filename. split; [apply lookup_insert_eq|].
  rewrite (run_code_supported _ _ _ _ Hs). cbn [fst].
  unfold inline_answer, inline_staged.
  rewrite (tmpdir_join h _ (inline_filename_relative _)).
  reflexivity.
Qed.

Lemma run_code_runs_the_staged_code_witness :
  fst (run_code docker_memory_error "x = [0] * 10**10" None empty_host) =
    inline_result
      (docker_memory_error {[ "/tmp/tmp0/user_code.py" := "x = [0] * 10**10" ]}
         (docker_cmd "python" "user_code.py" "/tmp/tmp0")).
Proof.
  refine (proj2 (run_code_runs_the_staged_code docker_memory_error _ None empty_host _)).
  reflexivity.
Defined.

(** X8: after a supported inline run, however it ends, the staging
    directory is gone, no file below it is left, and every other file of
    the host is as it was. *)
Theorem run_code_removes_staging provider code lang h :
  supported (norm_lang lang) = true ->
  let d := "/tmp/tmp" +:+ pretty (tmp_seq h) in
  let h' := snd (run_code provider code lang h) in
  (d ∉ dirs h') /\
  dirs h' = dirs h ∖ {[d]} /\
  (forall p, startswith (d +:+ "/") p = true -> files h' !! p = None) /\
  (forall p, startswith (d +:+ "/") p = false -> files h' !! p = files h !! p).
Proof.
  intros Hs d h'. subst h'.
  rewrite (run_code_supported _ _ _ _ Hs).
  cbn [snd rmtree record dirs files inline_staged mkdtemp write_file print].
  change (inline_tmpdir h) with d.
  rewrite (tmpdir_join h _ (inline_filename_relative _)).
  change (inline_tmpdir h) with d.
  split; [rewrite not_elem_of_difference, elem_of_singleton; now right|].
  split; [apply set_eq; intros x;
          rewrite !elem_of_difference, elem_of_union; tauto|].
  split.
  - intros p Hp. apply map_lookup_filter_None. right. intros x _.
    cbn. rewrite Hp. cbn. tauto.
  - intros p Hp.
    assert (Hne : d +:+ "/" +:+ inline_filename (norm_lang lang) <> p).
    { intros <-. rewrite <- append_assoc, startswith_app in Hp. discriminate. }
    destruct (files h !! p) as [x|] eqn:Hx.
    + apply map_lookup_filter_Some. split.
      * now rewrite lookup_insert_ne.
      * cbn. rewrite Hp. cbn. tauto.
    + apply map_lookup_filter_None. left. now rewrite lookup_insert_ne.
Qed.

Lemma run_code_removes_staging_witness :
  files (snd (run_code docker_missing "print(1)" (Some "python") job_host)) !!
    "/tmp/tmp0/user_code.py" = None /\
  files (snd (run_code docker_missing "print(1)" (Some "python") job_host)) !!
    "/srv/job/main.py" = Some "print(1)".
Proof.
  destruct (run_code_removes_staging docker_missing "print(1)" (Some "python") job_host)
    as (_ & _ & Hgone & Hkept); [reflexivity|].
  split.
  - apply Hgone. reflexivity.
  - rewrite Hkept by reflexivity. reflexivity.
Defined.

(** ** More on a directory run *)

(** X9: [run_code_from_dir] stages nothing, whatever it is given and
    however the run ends: the files and directories of the host are as
    they were and no staging event is recorded. *)
Theorem run_code_from_dir_never_stages provider entry lang host_dir h :
  let h' := snd (run_code_from_dir provider entry lang host_dir h) in
  files h' = files h /\ dirs h' = dirs h /\ tmp_seq h' = tmp_seq h /\
  stagings (journal h') = stagings (journal h).
Proof.
  cbv zeta. destruct (supported (norm_lang lang)) eqn:Hs.
  - destruct (os_path.exists_ (os_path.join host_dir entry) h) eqn:He.
    + rewrite (run_code_from_dir_present _ _ _ _ _ Hs He).
      cbn [snd record journal files dirs tmp_seq dir_staged print].
      rewrite <- app_assoc, stagings_app. cbn. now rewrite app_nil_r.
    + now rewrite (run_code_from_dir_absent _ _ _ _ _ Hs He).
  - now rewrite (run_code_from_dir_unsupported _ _ _ _ _ Hs).
Qed.

(** X10: an entry that starts with a slash is looked up as it is:
    [host_dir] plays no part in the check, so an absolute path that exists
    anywhere on the host passes it, and the provider is then called with
    that path as the file to run. *)
Theorem run_code_from_dir_absolute_entry provider entry lang host_dir h :
  startswith "/" entry = true ->
  supported (norm_lang lang) = true ->
  run_code_from_dir provider entry lang host_dir h =
    if os_path.exists_ entry h then
      (dir_result (provider (files h) (docker_cmd (norm_lang lang) entry host_dir)),
       record (EvSubprocessRun (docker_cmd (norm_lang lang) entry host_dir))
         (dir_staged entry lang host_dir h))
    else (Return ("", "Entry file not found: " +:+ entry, -3), h).
Proof.
  intros Habs Hs.
  assert (Hj : os_path.join host_dir entry = entry)
    by (unfold os_path.join; now rewrite Habs).
  destruct (os_path.exists_ entry h) eqn:He.
  - rewrite <- Hj in He. now rewrite (run_code_from_dir_present _ _ _ _ _ Hs He).
  - rewrite <- Hj in He. now rewrite (run_code_from_dir_absent _ _ _ _ _ Hs He).
Qed.

Lemma run_code_from_dir_absolute_entry_witness :
  invocations (journal (snd (run_code_from_dir docker_without_node "/srv/job/main.py"
                               (Some "python") "/elsewhere" job_host))) =
    [docker_cmd "python" "/srv/job/main.py" "/elsewhere"].
Proof.
  rewrite (run_code_from_dir_absolute_entry docker_without_node "/srv/job/main.py"
             (Some "python") "/elsewhere" job_host); reflexivity.
Defined.

(** The entry is looked up as the system resolves it: a dot, a doubled
    slash or a step up and down change nothing, and a name below a regular
    file is not there. *)
Example entry_is_resolved_on_the_host :
  invocations (journal (snd (run_code_from_dir docker_without_node "./main.py"
                               (Some "python") "/srv/job" job_host))) =
    [docker_cmd "python" "./main.py" "/srv/job"] /\
  os_path.exists_ "/srv/job/./main.py" job_host = true /\
  os_path.exists_ "/srv//job/main.py" job_host = true /\
  os_path.exists_ "/srv/job/pkg/../main.py" archive_host = true /\
  os_path.exists_ "/srv/job/nowhere/../main.py" archive_host = false /\
  os_path.exists_ "/srv/job/main.py/" job_host = false /\
  os_path.exists_ "" job_host = false.
Proof. vm_compute. repeat split. Qed.

(** ** The history *)

Lemma removelast_take {A} (l : list A) : removelast l = take (length l - 1) l.
Proof.
  induction l as [|x l IH]; [reflexivity|].
  destruct l as [|y l]; [reflexivity|].
  cbn [removelast] in *. rewrite IH. cbn [length].
  replace (S (S (length l)) - 1)%nat with (S (S (length l) - 1)) by lia.
  reflexivity.
Qed.

Lemma take_app_take {A} n (a b : list A) : take n (a ++ take n b) = take n (a ++ b).
Proof.
  rewrite !take_app. f_equal. rewrite take_take. f_equal. lia.
Qed.

(** The list after one save, when it was within its bound. *)
Lemma save_history_item_list item s :
  (length (HISTORY s) <= MAX_HISTORY)%nat ->
  HISTORY (snd (save_history_item item s)) = take MAX_HISTORY (item :: HISTORY s).
Proof.
  intros Hlen. unfold save_history_item.
  assert (Hh : (if bool_decide (MAX_HISTORY < length (item :: HISTORY s))%nat
                then removelast (item :: HISTORY s) else item :: HISTORY s) =
               take MAX_HISTORY (item :: HISTORY s)).
  { case_bool_decide as Hd.
    - rewrite removelast_take. f_equal. cbn [length] in *. lia.
    - rewrite take_ge; [reflexivity|]. cbn [length] in *. lia. }
  cbv zeta. rewrite Hh. now destruct (runs_table s).
Qed.


Lemma save_history_item_machine item s :
  machine (snd (save_history_item item s)) = machine s.
Proof. unfold save_history_item. now destruct (runs_table s). Qed.

Lemma save_all_list items : forall s,
  (length (HISTORY s) <= MAX_HISTORY)%nat ->
  HISTORY (save_all items s) = take MAX_HISTORY (rev items ++ HISTORY s).
Proof.
  induction items as [|item items IH]; intros s Hlen.
  - cbn. now rewrite take_ge.
  - change (save_all (item :: items) s) with (save_all items (try_save item s)).
    unfold try_save. rewrite IH.
    + rewrite save_history_item_list by exact Hlen.
      rewrite take_app_take. cbn [rev]. now rewrite <- app_assoc.
    + rewrite save_history_item_list by exact Hlen. rewrite length_take. lia.
Qed.

(** X11: [save_history_item] puts the entry at the head of [HISTORY] and
    keeps the list within [MAX_HISTORY] by dropping the oldest entry; the
    list is updated before the row is inserted, whatever the table is. *)
Theorem save_history_item_newest_first_bounded item s :
  (length (HISTORY s) <= MAX_HISTORY)%nat ->
  let s' := snd (save_history_item item s) in
  HISTORY s' = take MAX_HISTORY (item :: HISTORY s) /\
  head (HISTORY s') = Some item /\
  (length (HISTORY s') <= MAX_HISTORY)%nat.
Proof.
  intros Hlen s'. subst s'. rewrite (save_history_item_list _ _ Hlen).
  split; [reflexivity|]. split; [reflexivity|].
  rewrite length_take; lia.
Qed.

Lemma save_history_item_newest_first_bounded_witness :
  HISTORY (snd (save_history_item (Item.mk "t1" "python" "print(1)" "1" "" 0)
                  (mkServer [] None empty_host))) =
    [Item.mk "t1" "python" "print(1)" "1" "" 0].
Proof.
  refine (proj1 (save_history_item_newest_first_bounded _ (mkServer [] None empty_host) _)).
  cbn. lia.
Defined.

(** X12: after any number of saves [HISTORY] holds the newest
    [MAX_HISTORY] entries, newest first. *)
Theorem history_keeps_the_newest items s :
  (length (HISTORY s) <= MAX_HISTORY)%nat ->
  HISTORY (save_all items s) = take MAX_HISTORY (rev items ++ HISTORY s).
Proof. apply save_all_list. Qed.

Lemma history_keeps_the_newest_witness :
  HISTORY (save_all [Item.mk "t1" "python" "a" "" "" 0; Item.mk "t2" "node" "b" "" "" 0]
             (fresh_server empty_host)) =
    [Item.mk "t2" "node" "b" "" "" 0; Item.mk "t1" "python" "a" "" "" 0].
Proof.
  refine (history_keeps_the_newest _ (fresh_server empty_host) _).
  cbn. lia.
Defined.

(** ** The handlers *)


Lemma str_take_all n : forall s, (String.length s <= n)%nat -> str_take n s = s.
Proof.
  induction n as [|n IH]; intros [|c s] Hl; cbn in *; try reflexivity; try lia.
  rewrite IH by lia. reflexivity.
Qed.

Example strip_example :
  strip "  print(1) " = "print(1)" /\ strip (String "009" (String "010" " ")) = "".
Proof. vm_compute. split; reflexivity. Qed.

(** X14: for a request whose body is a JSON object (or is missing, not
    JSON or falsy, which the handler takes as the empty object) and whose
    language is absent, falsy or a string, [POST /run] answers 400 with the
    same message when the code is absent, is not a string, is empty or is
    made of white space only; the provider is not called and nothing is
    saved. (A truthy body that is no object and a truthy language that is
    no string make the handler raise before it looks at the code.) *)
Theorem run_rejects_missing_or_blank_code provider request_body now s fields language :
  get_json_or_empty request_body = JObj fields ->
  or_python_lower (default (JStr "python") (obj_get "language" fields)) = Return language ->
  match default (JStr "") (obj_get "code" fields) with
  | JStr code => strip code = ""
  | _ => True
  end ->
  run provider request_body now s =
    (Return (ErrorBody "Field 'code' is required and must be a non-empty string.", 400), s).
Proof.
  intros Hd Hl Hc. unfold run. rewrite Hd. cbn [py_get]. rewrite Hl.
  destruct (default (JStr "") (obj_get "code" fields)) as [| | |code| |]; try reflexivity.
  now rewrite Hc.
Qed.

Lemma run_rejects_missing_or_blank_code_witness :
  run docker_oom_killed None "2024-01-01 00:00:00" (fresh_server empty_host) =
    (Return (ErrorBody "Field 'code' is required and must be a non-empty string.", 400),
     fresh_server empty_host) /\
  run docker_oom_killed (Some (JObj [("code", JStr "  "); ("language", JNull)]))
      "2024-01-01 00:00:00" (fresh_server empty_host) =
    (Return (ErrorBody "Field 'code' is required and must be a non-empty string.", 400),
     fresh_server empty_host) /\
  run docker_oom_killed (Some (JObj [("code", JInt 7)]))
      "2024-01-01 00:00:00" (fresh_server empty_host) =
    (Return (ErrorBody "Field 'code' is required and must be a non-empty string.", 400),
     fresh_server empty_host).
Proof.
  split; [|split].
  - refine (run_rejects_missing_or_blank_code _ None _ _ [] "python" _ _ _); reflexivity.
  - refine (run_rejects_missing_or_blank_code _ _ _ _
              [("code", JStr "  "); ("language", JNull)] "python" _ _ _); reflexivity.
  - refine (run_rejects_missing_or_blank_code _ _ _ _ [("code", JInt 7)] "python" _ _ _);
      try reflexivity; try exact I.
Defined.

(** X15: for a request whose body is a JSON object and whose language is
    absent, falsy or a string, [POST /run] answers 400 with the too-long
    message when the code is a string that is not blank and has more than
    [MAX_CODE_CHARS] characters; the provider is not called and nothing is
    saved. (A blank code of that length gets the message of X14: that
    check comes first.) *)
Theorem run_rejects_long_code provider request_body now s fields language code :
  get_json_or_empty request_body = JObj fields ->
  or_python_lower (default (JStr "python") (obj_get "language" fields)) = Return language ->
  obj_get "code" fields = Some (JStr code) ->
  strip code <> "" ->
  MAX_CODE_CHARS < Z.of_nat (String.length code) ->
  run provider request_body now s =
    (Return (ErrorBody "Code is too long (max 5000 characters).", 400), s).
Proof.
  intros Hd Hl Hc Hs Hlen. unfold run. rewrite Hd. cbn [py_get]. rewrite Hl, Hc.
  cbn [default from_option id].
  rewrite (proj2 (String.eqb_neq _ _) Hs).
  now rewrite (proj2 (Z.ltb_lt _ _) Hlen).
Qed.

Lemma run_rejects_long_code_witness :
  run docker_oom_killed (Some (JObj [("code", JStr long_code)]))
      "2024-01-01 00:00:00" (fresh_server empty_host) =
    (Return (ErrorBody "Code is too long (max 5000 characters).", 400),
     fresh_server empty_host).
Proof.
  refine (run_rejects_long_code _ _ _ _ [("code", JStr long_code)] "python" long_code
            _ _ _ _ _); try reflexivity.
  vm_compute. discriminate.
Defined.



(** X17: what [POST /run] answers, and what it does to the host, depends
    on the request and the host only: not on the entries saved before and
    not on whether the table is there, so a failing insert changes no
    answer. *)
Theorem run_answer_ignores_the_history provider request_body now s :
  fst (run provider request_body now s) =
    fst (run provider request_body now (mkServer [] None (machine s))) /\
  machine (snd (run provider request_body now s)) =
    machine (snd (run provider request_body now (mkServer [] None (machine s)))).
Proof.
  unfold run. cbn [machine].
  destruct (py_get _ "code" _) as [c|e]; [|split; reflexivity].
  destruct (py_get _ "language" _) as [l|e]; [|split; reflexivity].
  destruct (or_python_lower l) as [language|e]; [|split; reflexivity].
  destruct c as [| | |code| |]; try (split; reflexivity).
  destruct (String.eqb (strip code) ""); [split; reflexivity|].
  destruct (MAX_CODE_CHARS <? _)%Z; [split; reflexivity|].
  destruct (run_code provider code (Some language) (machine s)) as [[[[out err] status]|e] h'].
  - cbn [fst snd]. unfold try_save. rewrite !save_history_item_machine. split; reflexivity.
  - split; reflexivity.
Qed.

(** X18: when the provider cannot be called, the exception leaves
    [POST /run] too, and no entry is saved. *)
Theorem run_saves_nothing_when_the_run_raises provider request_body now s fields language
    code e h' :
  get_json_or_empty request_body = JObj fields ->
  or_python_lower (default (JStr "python") (obj_get "language" fields)) = Return language ->
  obj_get "code" fields = Some (JStr code) ->
  strip code <> "" ->
  Z.of_nat (String.length code) <= MAX_CODE_CHARS ->
  run_code provider code (Some language) (machine s) = (Raise e, h') ->
  run provider request_body now s = (Raise e, mkServer (HISTORY s) (runs_table s) h').
Proof.
  intros Hd Hl Hc Hs Hlen Hrun.
  unfold run. rewrite Hd. cbn [py_get]. rewrite Hl, Hc.
  cbn [default from_option id].
  rewrite (proj2 (String.eqb_neq _ _) Hs).
  now rewrite (proj2 (Z.ltb_ge _ _) Hlen), Hrun.
Qed.

Lemma run_saves_nothing_when_the_run_raises_witness :
  fst (run docker_missing (Some (JObj [("code", JStr "print(1)")]))
         "2024-01-01 00:00:00" (fresh_server empty_host)) =
    Raise (OtherException "[Errno 2] No such file or directory: 'docker'") /\
  HISTORY (snd (run docker_missing (Some (JObj [("code", JStr "print(1)")]))
                  "2024-01-01 00:00:00" (fresh_server empty_host))) = [].
Proof.
  rewrite (run_saves_nothing_when_the_run_raises docker_missing
             (Some (JObj [("code", JStr "print(1)")]))
             "2024-01-01 00:00:00" (fresh_server empty_host)
             [("code", JStr "print(1)")] "python" "print(1)"
             (OtherException "[Errno 2] No such file or directory: 'docker'")
             (snd (run_code docker_missing "print(1)" (Some "python") empty_host)));
    try reflexivity.
  - split; reflexivity.
  - vm_compute. discriminate.
  - vm_compute. discriminate.
Defined.

Section BatchHandler.

Variable provider : gmap string string -> list string -> py_result CompletedProcess.
Variable sched : schedule.
Variable clock : nat -> string.

(** The saving loop, when every slot of [results] is filled as
    [run_multiple] fills it. *)
Lemma batch_item_of_result i t :
  Item.mk (clock i) (dict_get t "language" "python")
    (str_take 2000 (dict_get t "code" ""))
    (output (result_of (task_outcome provider sched i t)))
    (error (result_of (task_outcome provider sched i t)))
    (exit_code (result_of (task_outcome provider sched i t))) =
  batch_item provider sched clock i t.
Proof.
  unfold batch_item, task_outcome, result_of.
  destruct (fst (run_code provider _ _ _)) as [[[out err] status]|e]; reflexivity.
Qed.

Lemma save_batch_spec results : forall tasks idx s,
  (forall k t, tasks !! k = Some t ->
     results !! (idx + k)%nat =
       Some (Some (result_of (task_outcome provider sched (idx + k) t)))) ->
  save_batch clock results idx tasks s =
    (Return tt,
     save_all (imap (fun k => batch_item provider sched clock (idx + k)) tasks) s).
Proof.
  induction tasks as [|t tasks IH]; intros idx s Hres; [reflexivity|].
  cbn [save_batch].
  pose proof (Hres 0%nat t eq_refl) as H0.
  rewrite Nat.add_0_r in H0. rewrite H0.
  rewrite batch_item_of_result.
  rewrite IH.
  - rewrite imap_cons, Nat.add_0_r.
    assert (Heq : imap (fun k => batch_item provider sched clock (S idx + k)) tasks =
                  imap ((fun k => batch_item provider sched clock (idx + k)) ∘ S) tasks).
    { apply imap_ext. intros k x _. cbn. now rewrite Nat.add_succ_r. }
    rewrite Heq. reflexivity.
  - intros k t' Hk. replace (S idx + k)%nat with (idx + S k)%nat by lia.
    now apply Hres.
Qed.

Lemma existsb_too_long (tasks : list (gmap string string)) :
  existsb (fun t => (MAX_CODE_CHARS <? Z.of_nat (String.length (dict_get t "code" "")))%Z)
    tasks = false <->
  Forall (fun t => Z.of_nat (String.length (dict_get t "code" "")) <= MAX_CODE_CHARS) tasks.
Proof.
  induction tasks as [|t tasks IH]; cbn.
  - split; [constructor | reflexivity].
  - rewrite orb_false_iff, IH, Forall_cons, Z.ltb_ge. reflexivity.
Qed.

End BatchHandler.

(** X19: [POST /run-batch] answers 400 for the whole batch when one task
    has a code of more than [MAX_CODE_CHARS] characters: no task is run
    and nothing is saved. *)
Theorem run_batch_rejects_a_long_task provider tasks clock sched s t :
  t ∈ tasks ->
  MAX_CODE_CHARS < Z.of_nat (String.length (dict_get t "code" "")) ->
  run_batch provider (Some tasks) clock sched s =
    (Return (ErrorBody "A task code is too long", 400), s).
Proof.
  intros Hin Hlen. unfold run_batch. cbn [default from_option id].
  destruct tasks as [|t0 tasks]; [inversion Hin|].
  destruct (existsb _ (t0 :: tasks)) eqn:He; [reflexivity|].
  apply existsb_too_long in He.
  rewrite Forall_forall in He. specialize (He t Hin). lia.
Qed.

Lemma run_batch_rejects_a_long_task_witness :
  run_batch docker_without_node (Some [python_task; {[ "code" := long_code ]}])
      (fun _ => "2024-01-01 00:00:00") reversed_schedule (fresh_server empty_host) =
    (Return (ErrorBody "A task code is too long", 400), fresh_server empty_host).
Proof.
  refine (run_batch_rejects_a_long_task _ _ _ _ _ {[ "code" := long_code ]} _ _).
  - apply elem_of_cons; right; apply elem_of_cons; now left.
  - vm_compute. reflexivity.
Defined.

(** X20: [POST /run-batch] on a batch that passes the checks, an empty or
    missing code included, answers 200 with one result per task, the
    result at [i] being the output, the error text and the exit code that
    [run_code] returned for task [i] in the language under its key [lang]
    (the executor error, had it raised); and [HISTORY] receives one entry
    per task, the last task first, with the language read from the key
    [language], the code cut to 2000 characters and the same output, error
    text and exit code. *)
Theorem run_batch_answers_in_order provider tasks clock sched s :
  tasks <> [] ->
  Forall (fun t => Z.of_nat (String.length (dict_get t "code" "")) <= MAX_CODE_CHARS) tasks ->
  Permutation (completion sched) (seq 0 (length tasks)) ->
  (length (HISTORY s) <= MAX_HISTORY)%nat ->
  let items :=
    imap (fun i t =>
            match fst (run_code provider (dict_get t "code" "")
                         (Some (dict_get t "lang" "python")) (worker_host sched i)) with
            | Return (out, err, status) =>
                Item.mk (clock i) (dict_get t "language" "python")
                  (str_take 2000 (dict_get t "code" "")) out err status
            | Raise e =>
                Item.mk (clock i) (dict_get t "language" "python")
                  (str_take 2000 (dict_get t "code" ""))
                  "" ("Executor error: " +:+ str_exn e) (-3)
            end) tasks in
  exists results,
    fst (run_batch provider (Some tasks) clock sched s) =
      Return (BatchBody results, 200) /\
    length results = length tasks /\
    (forall i t, tasks !! i = Some t ->
       results !! i =
         Some (Some
           match fst (run_code provider (dict_get t "code" "")
                        (Some (dict_get t "lang" "python")) (worker_host sched i)) with
           | Return (out, err, status) => mkResult out err status
           | Raise e => mkResult "" ("Executor error: " +:+ str_exn e) (-3)
           end)) /\
    HISTORY (snd (run_batch provider (Some tasks) clock sched s)) =
      take MAX_HISTORY (rev items ++ HISTORY s).
Proof.
  intros Hne Hlen Hperm Hh items.
  destruct (run_multiple_spec provider sched tasks 5 ltac:(lia) Hperm)
    as (results & Hrun & Hl & Hres).
  assert (Hb : run_batch provider (Some tasks) clock sched s =
               (Return (BatchBody results, 200), save_all items s)).
  { unfold run_batch. cbn [default from_option id].
    destruct tasks as [|t0 tasks]; [contradiction|].
    rewrite (proj2 (existsb_too_long _) Hlen), Hrun.
    rewrite (save_batch_spec provider sched clock results (t0 :: tasks) 0 s).
    - reflexivity.
    - intros k t Hk. now apply Hres. }
  exists results. rewrite Hb. cbn [fst snd].
  split; [reflexivity|]. split; [exact Hl|]. split.
  - intros i t Ht. rewrite (Hres i t Ht). unfold task_outcome, result_of.
    destruct (fst (run_code provider _ _ _)) as [[[out err] status]|e]; reflexivity.
  - now apply save_all_list.
Qed.

Lemma run_batch_answers_in_order_witness :
  exists results,
    fst (run_batch docker_without_node (Some [∅; node_task])
           (fun _ => "2024-01-01 00:00:00") reversed_schedule (fresh_server empty_host)) =
      Return (BatchBody results, 200) /\
    length results = 2%nat /\
    HISTORY (snd (run_batch docker_without_node (Some [∅; node_task])
                    (fun _ => "2024-01-01 00:00:00") reversed_schedule
                    (fresh_server empty_host))) =
      [Item.mk "2024-01-01 00:00:00" "python" "console.log(1)" ""
         "Executor error: [Errno 12] Cannot allocate memory" (-3);
       Item.mk "2024-01-01 00:00:00" "python" "" "ok" "" 0].
Proof.
  destruct (run_batch_answers_in_order docker_without_node [∅; node_task]
              (fun _ => "2024-01-01 00:00:00") reversed_schedule (fresh_server empty_host))
    as (results & Hrun & Hl & _ & Hh).
  - discriminate.
  - repeat constructor; vm_compute; discriminate.
  - apply perm_swap.
  - cbn. lia.
  - exists results. split; [exact Hrun|]. split; [exact Hl|].
    rewrite Hh. vm_compute. reflexivity.
Defined.

(** The language a batch saves is not the language it runs: a task with
    [language] set to node and no [lang] runs as python and is saved as
    node. *)
Example batch_saves_the_language_key :
  let t : gmap string string := {[ "code" := "console.log(1)"; "language" := "node" ]} in
  task_outcome docker_without_node reversed_schedule 0 t = Return ("ok", "", 0) /\
  Item.language (batch_item docker_without_node reversed_schedule (fun _ => "now") 0 t) =
    "node".
Proof. vm_compute. split; reflexivity. Qed.
